(** * SalesforceToS3Operator: a shallow embedding of
      [salesforce_to_slack/plugins/salesforce_operator.py]

    The operator signs in to Salesforce, resolves the list of fields, fetches
    either a whole object or the result of a custom query, has the hook write
    the records to a named temporary file and uploads that file to S3.

    The two hooks ([SalesforceHook], [S3Hook]) and [NamedTemporaryFile] are
    libraries outside the repository: they are taken as a record of
    operations over an abstract world [W].  Every such operation may raise.
    The operator itself is modelled in a state-and-exception monad whose
    state survives an exception, as a Python object's attributes do. *)

From Stdlib Require Import String List Bool ZArith.
Import ListNotations.
Open Scope string_scope.

Set Implicit Arguments.
Set Warnings "-register-all".

(** ** Python values *)

(** The values a Salesforce query result is made of, floats left out.  A
    [dict] keeps its insertion order, so it is an association list; its
    keys are strings, as in a decoded JSON object. *)
Inductive pyval : Type :=
| PNone
| PBool (b : bool)
| PInt (z : Z)
| PStr (s : string)
| PList (l : list pyval)
| PDict (d : list (string * pyval)).

Inductive exn : Type :=
| ValueError (msg : string)
| TypeError
| KeyError (key : string)
| AttributeError
| External (what : string).   (* raised by a hook or by the OS *)

Inductive result (A : Type) : Type :=
| Ok (a : A)
| Raise (e : exn).
Arguments Ok {A} a.
Arguments Raise {A} e.

Definition bindR {A B} (r : result A) (k : A -> result B) : result B :=
  match r with
  | Ok a => k a
  | Raise e => Raise e
  end.

(** [bool(v)] *)
Definition truthy (v : pyval) : bool :=
  match v with
  | PNone => false
  | PBool b => b
  | PInt z => negb (Z.eqb z 0)
  | PStr s => negb (String.eqb s "")
  | PList l => match l with [] => false | _ :: _ => true end
  | PDict d => match d with [] => false | _ :: _ => true end
  end.

(** [bool(s)] for an attribute that is a [str] or [None] *)
Definition truthy_str (s : option string) : bool :=
  match s with
  | Some (String _ _) => true
  | _ => false
  end.

(** [bool(l)] for an attribute that is a list of names or [None] *)
Definition truthy_fields (l : option (list string)) : bool :=
  match l with
  | Some (_ :: _) => true
  | _ => false
  end.

Fixpoint lookup (k : string) (d : list (string * pyval)) : option pyval :=
  match d with
  | [] => None
  | (k', v) :: d' => if String.eqb k k' then Some v else lookup k d'
  end.

(** [d[k] = v]: the value is replaced where the key stands, a new key goes
    to the end. *)
Fixpoint update (k : string) (v : pyval) (d : list (string * pyval))
  : list (string * pyval) :=
  match d with
  | [] => [(k, v)]
  | (k', v') :: d' =>
      if String.eqb k k' then (k', v) :: d' else (k', v') :: update k v d'
  end.

(** [r.get(k, None)]; only a [dict] has the method. *)
Definition py_get (r : pyval) (k : string) : result pyval :=
  match r with
  | PDict d => Ok (match lookup k d with Some v => v | None => PNone end)
  | _ => Raise AttributeError
  end.

(** [r[k]] for a string [k] *)
Definition py_getitem (r : pyval) (k : string) : result pyval :=
  match r with
  | PDict d =>
      match lookup k d with
      | Some v => Ok v
      | None => Raise (KeyError k)
      end
  | _ => Raise TypeError
  end.

(** [r[k] = v] for a string [k] *)
Definition py_setitem (r : pyval) (k : string) (v : pyval) : result pyval :=
  match r with
  | PDict d => Ok (PDict (update k v d))
  | _ => Raise TypeError
  end.

(** The characters of a [str], each as a [str] of length one.  A
    [string] stands for a Python [str] character by character, which makes
    it text of code points below 256. *)
Fixpoint chars (s : string) : list pyval :=
  match s with
  | EmptyString => []
  | String c s' => PStr (String c EmptyString) :: chars s'
  end.

(** The elements [for x in v] and [list.extend(v)] go through. *)
Definition py_iter (v : pyval) : result (list pyval) :=
  match v with
  | PList l => Ok l
  | PDict d => Ok (map (fun kv => PStr (fst kv)) d)
  | PStr s => Ok (chars s)
  | _ => Raise TypeError
  end.

(** The loop of [special_query]:
<<
    for r in results['records']:
        if r.get(relationship_object, None):
            records.extend(r[relationship_object]['records'])
>>
    [records] is the list built so far. *)
Fixpoint flatten_loop (relationship_object : string) (rs : list pyval)
    (records : list pyval) : result (list pyval) :=
  match rs with
  | [] => Ok records
  | r :: rs' =>
      bindR (py_get r relationship_object) (fun g =>
      if truthy g then
        bindR (py_getitem r relationship_object) (fun rel =>
        bindR (py_getitem rel "records") (fun nested =>
        bindR (py_iter nested) (fun ys =>
        flatten_loop relationship_object rs' (records ++ ys))))
      else flatten_loop relationship_object rs' records)
  end.

(** The body of [if relationship_object:] on the query's result. *)
Definition flatten (relationship_object : string) (results : pyval)
  : result pyval :=
  bindR (py_getitem results "records") (fun top =>
  bindR (py_iter top) (fun rs =>
  bindR (flatten_loop relationship_object rs []) (fun records =>
  py_setitem results "records" (PList records)))).

(** ** The operator and what it acts on *)

(** The attributes [__init__] stores on [self]. *)
Record SalesforceToS3Operator : Type := {
  sf_conn_id : string;
  output : string;
  s3_conn_id : string;
  s3_bucket : string;
  object : string;
  fields : option (list string);
  fmt : string;
  query : option string;
  relationship_object : option string;
  record_time_added : bool;
  coerce_to_timestamp : bool
}.

(** The one assignment [execute] makes: [self.fields = ...]. *)
Definition set_fields (self : SalesforceToS3Operator)
    (fs : option (list string)) : SalesforceToS3Operator :=
  {| sf_conn_id := sf_conn_id self;
     output := output self;
     s3_conn_id := s3_conn_id self;
     s3_bucket := s3_bucket self;
     object := object self;
     fields := fs;
     fmt := fmt self;
     query := query self;
     relationship_object := relationship_object self;
     record_time_added := record_time_added self;
     coerce_to_timestamp := coerce_to_timestamp self |}.

(** A call that leaves the operator, with its arguments.  The field
    listing also records what it returned ([None] when it raised), since
    that value becomes [self.fields]. *)
Inductive event : Type :=
| EvTmpOpen (name : string)
| EvSalesforceHook (conn_id : string) (out : string)
| EvSignIn
| EvGetAvailableFields (obj : string) (ret : option (list string))
| EvMakeQuery (q : option string)
| EvGetObject (obj : string) (fs : option (list string))
| EvWriteObject (records : pyval) (filename : string) (fmt : string)
    (coerce_to_timestamp : bool) (record_time_added : bool)
| EvFlush (name : string)
| EvS3Hook (conn_id : string)
| EvLoadFile (filename : string) (key : string) (bucket_name : string)
    (replace : bool)
| EvConnectionClose
| EvTmpClose (name : string).

(** The object [NamedTemporaryFile] returns. *)
Record NamedTemporaryFile : Type := {
  name : string;
  close_called : bool
}.

(** The external operations.  Each takes the world and returns the next
    world with either the text of the exception it raised or its value. *)
Record hooks (W : Type) : Type := {
  mktemp : W -> W * (string + string);
  salesforce_hook : string -> string -> W -> W * (string + unit);
  sign_in : W -> W * (string + unit);
  get_available_fields : string -> W -> W * (string + list string);
  make_query : option string -> W -> W * (string + pyval);
  get_object_from_salesforce :
    string -> option (list string) -> W -> W * (string + pyval);
  write_object_to_file :
    pyval -> string -> string -> bool -> bool -> W -> W * (string + unit);
  flush : string -> W -> W * (string + unit);
  s3_hook : string -> W -> W * (string + unit);
  load_file : string -> string -> string -> bool -> W -> W * (string + unit);
  connection_close : W -> W * (string + unit)
}.

Section Operator.

Context {W : Type}.
Variable hk : hooks W.

Record state : Type := {
  self : SalesforceToS3Operator;
  world : W;
  log : list event;            (* oldest call first *)
  disk : list string;          (* temporary files present *)
  tmp : option NamedTemporaryFile
}.

(** A computation changes the state and returns or raises. *)
Definition M (A : Type) : Type := state -> state * result A.

Definition ret {A} (a : A) : M A := fun s => (s, Ok a).

Definition raise {A} (e : exn) : M A := fun s => (s, Raise e).

Definition bind {A B} (m : M A) (k : A -> M B) : M B :=
  fun s =>
    match m s with
    | (s', Ok a) => k a s'
    | (s', Raise e) => (s', Raise e)
    end.

Definition lift {A} (r : result A) : M A := fun s => (s, r).

Definition get_self : M SalesforceToS3Operator := fun s => (s, Ok (self s)).

Definition assign_fields (fs : option (list string)) : M unit :=
  fun s =>
    ({| self := set_fields (self s) fs; world := world s; log := log s;
        disk := disk s; tmp := tmp s |}, Ok tt).

(** An external call: the world moves on, the call is logged, and what the
    operation raised is raised here. *)
Definition call {A} (f : W -> W * (string + A))
    (ev : string + A -> event) : M A :=
  fun s =>
    let (w, r) := f (world s) in
    ({| self := self s; world := w; log := log s ++ [ev r];
        disk := disk s; tmp := tmp s |},
     match r with
     | inl e => Raise (External e)
     | inr a => Ok a
     end).

Notation "x <- m ;; k" := (bind m (fun x => k))
  (at level 61, m at next level, right associativity).
Notation "m ;;; k" := (bind m (fun _ => k))
  (at level 61, right associativity).

(** [tmp.close()], also what leaving the [with] block runs.  The first
    call closes the file and unlinks it; a later call finds
    [close_called] set and does nothing. *)
Definition tmp_close : M unit :=
  fun s =>
    match tmp s with
    | Some t =>
        if close_called t then (s, Ok tt)
        else
          ({| self := self s; world := world s;
              log := log s ++ [EvTmpClose (name t)];
              disk := remove string_dec (name t) (disk s);
              tmp := Some {| name := name t; close_called := true |} |},
           Ok tt)
    | None => (s, Ok tt)
    end.

(** [with NamedTemporaryFile("w") as tmp: body].  When the file cannot be
    created nothing is acquired and the body does not run; otherwise the
    file is closed when the body returns and when it raises, and what the
    body raised goes on to the caller. *)
Definition with_NamedTemporaryFile {A} (body : string -> M A) : M A :=
  fun s =>
    match mktemp hk (world s) with
    | (w, inl e) =>
        ({| self := self s; world := w; log := log s; disk := disk s;
            tmp := tmp s |}, Raise (External e))
    | (w, inr nm) =>
        let s1 := {| self := self s; world := w;
                     log := log s ++ [EvTmpOpen nm];
                     disk := nm :: disk s;
                     tmp := Some {| name := nm; close_called := false |} |} in
        let (s2, r) := body nm s1 in
        let (s3, _) := tmp_close s2 in
        (s3, r)
    end.

(** [len(self.fields)] *)
Definition py_len (l : option (list string)) : result nat :=
  match l with
  | Some fs => Ok (length fs)
  | None => Raise TypeError
  end.

(** [special_query(self, query, sf_hook, relationship_object=None)] *)
Definition special_query (query : option string)
    (relationship_object : option string) : M pyval :=
  if negb (truthy_str query) then
    raise (ValueError "Query is None.  Cannot query nothing")
  else
    call (sign_in hk) (fun _ => EvSignIn) ;;;
    results <- call (make_query hk query) (fun _ => EvMakeQuery query) ;;
    match relationship_object with
    | Some rel =>
        if truthy_str (Some rel) then lift (flatten rel results)
        else ret results
    | None => ret results
    end.

(** Lines 132-133: [if not self.fields: self.fields = ...]. *)
Definition resolve_fields : M unit :=
  me <- get_self ;;
  if negb (truthy_fields (fields me)) then
    fs <- call (get_available_fields hk (object me))
               (fun r => EvGetAvailableFields (object me)
                           (match r with inl _ => None | inr l => Some l end)) ;;
    assign_fields (Some fs)
  else ret tt.

(** Lines 140-147: the custom query when [self.query] is set, the whole
    object otherwise. *)
Definition fetch : M pyval :=
  me <- get_self ;;
  if truthy_str (query me) then
    special_query (query me) (relationship_object me)
  else
    call (get_object_from_salesforce hk (object me) (fields me))
         (fun _ => EvGetObject (object me) (fields me)).

(** The body of the [with] block of [execute]; [tmp_name] is [tmp.name].
    The [logging.info] calls change nothing that is modelled here. *)
Definition execute_body (tmp_name : string) : M unit :=
  me <- get_self ;;
  call (salesforce_hook hk (sf_conn_id me) tmp_name)
       (fun _ => EvSalesforceHook (sf_conn_id me) tmp_name) ;;;
  call (sign_in hk) (fun _ => EvSignIn) ;;;
  resolve_fields ;;;
  me <- get_self ;;
  lift (py_len (fields me)) ;;;
  q <- fetch ;;
  me <- get_self ;;
  records <- lift (py_getitem q "records") ;;
  call (write_object_to_file hk records tmp_name (fmt me)
          (coerce_to_timestamp me) (record_time_added me))
       (fun _ => EvWriteObject records tmp_name (fmt me)
                   (coerce_to_timestamp me) (record_time_added me)) ;;;
  call (flush hk tmp_name) (fun _ => EvFlush tmp_name) ;;;
  call (s3_hook hk (s3_conn_id me)) (fun _ => EvS3Hook (s3_conn_id me)) ;;;
  call (load_file hk tmp_name (output me) (s3_bucket me) true)
       (fun _ => EvLoadFile tmp_name (output me) (s3_bucket me) true) ;;;
  call (connection_close hk) (fun _ => EvConnectionClose) ;;;
  tmp_close.

(** [execute(self, context)] *)
Definition execute : M unit := with_NamedTemporaryFile execute_body.

(** The state a run starts from: the operator as constructed, nothing
    logged, no temporary file open. *)
Definition start (cfg : SalesforceToS3Operator) (w : W) (d : list string)
  : state :=
  {| self := cfg; world := w; log := []; disk := d; tmp := None |}.

End Operator.

Arguments state : clear implicits.
Arguments M : clear implicits.

(** ** Reading a log *)

Definition is_sign_in (e : event) : bool :=
  match e with EvSignIn => true | _ => false end.

Definition is_make_query (e : event) : bool :=
  match e with EvMakeQuery _ => true | _ => false end.

Definition is_get_object (e : event) : bool :=
  match e with EvGetObject _ _ => true | _ => false end.

Definition is_fetch (e : event) : bool := is_make_query e || is_get_object e.

Definition is_load_file (e : event) : bool :=
  match e with EvLoadFile _ _ _ _ => true | _ => false end.

Definition is_get_available_fields (e : event) : bool :=
  match e with EvGetAvailableFields _ _ => true | _ => false end.

(** The calls that touch the temporary file. *)
Definition is_file_step (e : event) : bool :=
  match e with
  | EvTmpOpen _ | EvWriteObject _ _ _ _ _ | EvFlush _
  | EvLoadFile _ _ _ _ | EvTmpClose _ => true
  | _ => false
  end.

(** The calls made strictly before the first one [p] picks out (all of
    them when there is none). *)
Fixpoint before (p : event -> bool) (l : list event) : list event :=
  match l with
  | [] => []
  | e :: l' => if p e then [] else e :: before p l'
  end.

Definition is_sign_in_or_query (e : event) : bool :=
  is_sign_in e || is_make_query e.


(** ** What holds along a run *)

(** [m] keeps [I], whether it returns or raises. *)
Definition preserves {W A} (I : state W -> Prop) (m : M W A) : Prop :=
  forall s s' r, I s -> m s = (s', r) -> I s'.

(** Inside the [with] block: [tmp] is the file named [nm], and once it has
    been closed the file is gone and the log says so. *)
Definition tmp_inv {W} (nm : string) (s : state W) : Prop :=
  exists t, tmp s = Some t /\ name t = nm /\
    (close_called t = true ->
     ~ In nm (disk s) /\ In (EvTmpClose nm) (log s)).

(** [b] is [a] but for its field list. *)
Definition same_but_fields (a b : SalesforceToS3Operator) : Prop :=
  sf_conn_id b = sf_conn_id a /\
  output b = output a /\
  s3_conn_id b = s3_conn_id a /\
  s3_bucket b = s3_bucket a /\
  object b = object a /\
  fmt b = fmt a /\
  query b = query a /\
  relationship_object b = relationship_object a /\
  record_time_added b = record_time_added a /\
  coerce_to_timestamp b = coerce_to_timestamp a.

(** What holds of [self] all along a run that started from [cfg]. *)
Definition cfg_inv {W} (cfg : SalesforceToS3Operator) (s : state W) : Prop :=
  same_but_fields cfg (self s) /\
  (truthy_fields (fields cfg) = true -> fields (self s) = fields cfg) /\
  (fields (self s) = fields cfg \/
   exists fs, In (EvGetAvailableFields (object cfg) (Some fs)) (log s) /\
              fields (self s) = Some fs).

(** ** Sample hooks, for concrete runs *)

Definition sample_hooks (login : bool) (listing : list string)
    (answer : pyval) : hooks unit :=
  {| mktemp := fun w => (w, inr "/tmp/tmpq1w2e3");
     salesforce_hook := fun _ _ w => (w, inr tt);
     sign_in := fun w =>
       (w, if login then inr tt else inl "SalesforceAuthenticationFailed");
     get_available_fields := fun _ w => (w, inr listing);
     make_query := fun _ w => (w, inr answer);
     get_object_from_salesforce := fun _ _ w => (w, inr answer);
     write_object_to_file := fun _ _ _ _ _ w => (w, inr tt);
     flush := fun _ w => (w, inr tt);
     s3_hook := fun _ w => (w, inr tt);
     load_file := fun _ _ _ _ w => (w, inr tt);
     connection_close := fun w => (w, inr tt) |}.

Definition sample_operator (fs : option (list string)) (q : option string)
    (rel : option string) : SalesforceToS3Operator :=
  {| sf_conn_id := "salesforce_default";
     output := "output.csv";
     s3_conn_id := "s3_default";
     s3_bucket := "bucket";
     object := "Account";
     fields := fs;
     fmt := "csv";
     query := q;
     relationship_object := rel;
     record_time_added := false;
     coerce_to_timestamp := false |}.

Definition three_accounts : pyval :=
  PDict [("totalSize", PInt 3); ("done", PBool true);
         ("records", PList [PDict [("Id", PStr "001")];
                            PDict [("Id", PStr "002")];
                            PDict [("Id", PStr "003")]])].

(** ** The constructor *)

Section Init.

(** [str.lower], a builtin. *)
Variable lower : string -> string.

(** [__init__], with every argument given; the attributes of
    [BaseOperator], which [super().__init__] sets, are not among those the
    operator reads. *)
Definition init (sf_conn_id obj output s3_conn_id s3_bucket : string)
    (fields : option (list string)) (fmt : string)
    (query relationship_object : option string)
    (record_time_added coerce_to_timestamp : bool)
  : SalesforceToS3Operator :=
  {| sf_conn_id := sf_conn_id;
     output := output;
     s3_conn_id := s3_conn_id;
     s3_bucket := s3_bucket;
     object := obj;
     fields := fields;
     fmt := lower fmt;
     query := query;
     relationship_object := relationship_object;
     record_time_added := record_time_added;
     coerce_to_timestamp := coerce_to_timestamp |}.

End Init.

(** ** The shape of a query result *)

(** What a top-level record [r] gives the loop of [special_query] when it
    is shaped as Salesforce shapes it: nothing when the relationship is
    not there or holds a false value ([None], an empty collection), the
    list under ['records'] when it holds a [dict] that has one. *)
Inductive record_shape (rel : string) : pyval -> list pyval -> Prop :=
| shape_absent d :
    lookup rel d = None -> record_shape rel (PDict d) []
| shape_falsy d v :
    lookup rel d = Some v -> truthy v = false -> record_shape rel (PDict d) []
| shape_nested d kv d' l :
    lookup rel d = Some (PDict (kv :: d')) ->
    lookup "records" (kv :: d') = Some (PList l) ->
    record_shape rel (PDict d) l.

Definition is_dict (v : pyval) : bool :=
  match v with PDict _ => true | _ => false end.

Definition is_external (e : exn) : bool :=
  match e with External _ => true | _ => false end.

Definition is_write_object (e : event) : bool :=
  match e with EvWriteObject _ _ _ _ _ => true | _ => false end.

Definition is_tmp_close (e : event) : bool :=
  match e with EvTmpClose _ => true | _ => false end.

(** ** Taking a run apart *)

(** Unfolds the operator down to the external calls and splits on what
    each of them returns. *)
Ltac unfold_run :=
  unfold execute, with_NamedTemporaryFile, execute_body, fetch,
    resolve_fields, special_query, tmp_close, bind, call, lift, ret, raise,
    get_self, assign_fields, start in *.

Ltac split_on c :=
  let E := fresh "E" in destruct c as [? [?|?]] eqn:E.

Ltac split_call :=
  match goal with
  | |- context [mktemp ?h ?w] => split_on (mktemp h w)
  | |- context [salesforce_hook ?h ?a ?b ?w] => split_on (salesforce_hook h a b w)
  | |- context [sign_in ?h ?w] => split_on (sign_in h w)
  | |- context [get_available_fields ?h ?a ?w] =>
      split_on (get_available_fields h a w)
  | |- context [make_query ?h ?a ?w] => split_on (make_query h a w)
  | |- context [get_object_from_salesforce ?h ?a ?b ?w] =>
      split_on (get_object_from_salesforce h a b w)
  | |- context [write_object_to_file ?h ?a ?b ?c ?d ?e ?w] =>
      split_on (write_object_to_file h a b c d e w)
  | |- context [flush ?h ?a ?w] => split_on (flush h a w)
  | |- context [s3_hook ?h ?a ?w] => split_on (s3_hook h a w)
  | |- context [load_file ?h ?a ?b ?c ?d ?w] => split_on (load_file h a b c d w)
  | |- context [connection_close ?h ?w] => split_on (connection_close h w)
  end.

Ltac split_result :=
  match goal with
  | |- context [match ?r with Ok _ => _ | Raise _ => _ end] =>
      let E := fresh "E" in destruct r eqn:E
  end.

Ltac split_config :=
  match goal with
  | |- context [truthy_fields ?x] => is_var x; destruct x as [[|? ?]|]
  | |- context [truthy_str ?x] => is_var x; destruct x as [[|? ?]|]
  | |- context [match ?x with Some _ => _ | None => _ end] =>
      is_var x; destruct x as [[|? ?]|]
  end.

Ltac tidy :=
  cbn [self world log disk tmp fst snd name close_called set_fields
       sf_conn_id output s3_conn_id s3_bucket object fields fmt query
       relationship_object record_time_added coerce_to_timestamp
       negb truthy_fields truthy_str py_len app] in *.

(** The operator is taken apart into its attributes first, so that each
    test on one of them is a test on a variable. *)
Ltac run :=
  repeat match goal with
         | c : SalesforceToS3Operator |- _ => destruct c
         end;
  unfold_run; tidy;
  repeat (first [split_call | split_config | split_result]; tidy).

(** Closes a goal whose hypotheses place an event in a log that is
    written out. *)
Ltac in_log :=
  repeat match goal with
         | H : In _ (_ :: _) |- _ => destruct H as [H|H]
         | H : In _ [] |- _ => destruct H
         | H : _ = _ :> event |- _ =>
             first [discriminate H | injection H; intros; subst; clear H]
         end.

Ltac fin := first [reflexivity | assumption | congruence].

(** ** What every step keeps *)

Section Preservation.

Context {W : Type}.
Variable hk : hooks W.
Variable I : state W -> Prop.

Lemma preserves_ret A (a : A) : preserves I (ret a).
Proof. intros s s' r Hs E. inversion E; subst; exact Hs. Qed.

Lemma preserves_raise A (e : exn) : preserves I (raise (A := A) e).
Proof. intros s s' r Hs E. inversion E; subst; exact Hs. Qed.

Lemma preserves_lift A (x : result A) : preserves I (lift x).
Proof. intros s s' r Hs E. inversion E; subst; exact Hs. Qed.

Lemma preserves_get_self : preserves I get_self.
Proof. intros s s' r Hs E. inversion E; subst; exact Hs. Qed.

Lemma preserves_bind A B (m : M W A) (k : A -> M W B) :
  preserves I m -> (forall a, preserves I (k a)) -> preserves I (bind m k).
Proof.
  intros Hm Hk s s' r Hs. unfold bind.
  destruct (m s) as [s1 [a|e]] eqn:E; intros E'.
  - eapply Hk; [eapply Hm; eassumption | eassumption].
  - inversion E'; subst. eapply Hm; eassumption.
Qed.

(** An external call touches the world and the log only. *)
Hypothesis I_external : forall s w e,
  I s ->
  I {| self := self s; world := w; log := log s ++ [e]; disk := disk s;
       tmp := tmp s |}.

Lemma preserves_call A (f : W -> W * (string + A)) ev :
  preserves I (call f ev).
Proof.
  intros s s' r Hs. unfold call.
  destruct (f (world s)) as [w x]. intros E. inversion E; subst.
  apply I_external, Hs.
Qed.

Lemma preserves_special_query q rel : preserves I (special_query hk q rel).
Proof.
  unfold special_query. destruct (negb (truthy_str q)).
  - apply preserves_raise.
  - apply preserves_bind; [apply preserves_call | intros _].
    apply preserves_bind; [apply preserves_call | intros results].
    destruct rel as [rel|]; [|apply preserves_ret].
    destruct (truthy_str (Some rel));
      [apply preserves_lift | apply preserves_ret].
Qed.

Lemma preserves_fetch : preserves I (fetch hk).
Proof.
  unfold fetch. apply preserves_bind; [apply preserves_get_self | intros me].
  destruct (truthy_str (query me));
    [apply preserves_special_query | apply preserves_call].
Qed.

(** The steps of [execute_body] apart from the two that write something
    other than the world and the log. *)
Hypothesis I_resolve_fields : preserves I (resolve_fields hk).
Hypothesis I_tmp_close : preserves I tmp_close.

Lemma preserves_execute_body nm : preserves I (execute_body hk nm).
Proof.
  unfold execute_body.
  repeat first
    [ apply preserves_get_self | apply preserves_call | apply preserves_lift
    | apply preserves_fetch | apply I_resolve_fields | apply I_tmp_close
    | apply preserves_bind; [|intro] ].
Qed.

End Preservation.

(** ** The temporary file *)

Lemma tmp_inv_external W nm (s : state W) (w : W) e :
  tmp_inv nm s ->
  tmp_inv nm {| self := self s; world := w; log := log s ++ [e];
                disk := disk s; tmp := tmp s |}.
Proof.
  intros (t & Ht & Hn & Hc). exists t. cbn. repeat split; auto.
  - apply Hc; assumption.
  - apply in_or_app; left. apply Hc; assumption.
Qed.

Lemma tmp_inv_resolve_fields W (hk : hooks W) nm :
  preserves (tmp_inv nm) (resolve_fields hk).
Proof.
  unfold resolve_fields.
  apply preserves_bind; [apply preserves_get_self | intros me].
  destruct (negb (truthy_fields (fields me))); [|apply preserves_ret].
  apply preserves_bind;
    [apply preserves_call; intros; now apply tmp_inv_external | intros fs].
  intros s s' r Hs E. inversion E; subst. exact Hs.
Qed.

Lemma tmp_close_removes W nm (s s' : state W) r :
  tmp_inv nm s ->
  tmp_close s = (s', r) ->
  tmp s' = Some {| name := nm; close_called := true |} /\
  ~ In nm (disk s') /\ In (EvTmpClose nm) (log s').
Proof.
  intros (t & Ht & Hn & Hc). unfold tmp_close. rewrite Ht.
  destruct t as [n c]; cbn in *; subst n.
  destruct c; intros E; inversion E; subst; cbn.
  - rewrite Ht. split; [reflexivity | apply Hc; reflexivity].
  - split; [reflexivity|]. split.
    + apply remove_In.
    + apply in_or_app; right; left; reflexivity.
Qed.

Lemma tmp_inv_tmp_close W nm : preserves (tmp_inv nm) (@tmp_close W).
Proof.
  intros s s' r Hs E.
  destruct (tmp_close_removes Hs E) as (Ht & Hd & Hl).
  eexists; split; [exact Ht|]. cbn. auto.
Qed.

(** C7. The temporary file [execute] acquires is unlinked by the time
    [execute] returns or raises, whatever any of the external calls does:
    the file is no longer on disk, its handle is closed, and the closing is
    the work of this run. *)
Theorem tmp_removed W (hk : hooks W) cfg w d w1 nm s' r :
  mktemp hk w = (w1, inr nm) ->
  execute hk (start cfg w d) = (s', r) ->
  ~ In nm (disk s') /\
  tmp s' = Some {| name := nm; close_called := true |} /\
  In (EvTmpClose nm) (log s').
Proof.
  intros Hmk. unfold execute, with_NamedTemporaryFile.
  cbn [start world self log disk tmp]. rewrite Hmk.
  match goal with |- context [execute_body hk nm ?s] => set (s1 := s) end.
  assert (H1 : tmp_inv nm s1).
  { eexists; split; [reflexivity|]. cbn. split; [reflexivity|discriminate]. }
  destruct (execute_body hk nm s1) as [s2 r2] eqn:E2.
  assert (H2 : tmp_inv nm s2).
  { eapply (preserves_execute_body (hk := hk) (I := tmp_inv nm)); eauto.
    - intros; now apply tmp_inv_external.
    - apply tmp_inv_resolve_fields.
    - apply tmp_inv_tmp_close. }
  destruct (tmp_close s2) as [s3 r3] eqn:E3. intros E; inversion E; subst.
  destruct (tmp_close_removes H2 E3) as (Ht & Hd & Hl). auto.
Qed.

(** When the file cannot be created there is nothing to remove: the body
    does not run and the disk is as it was. *)
Lemma tmp_not_acquired W (hk : hooks W) cfg w d w1 e :
  mktemp hk w = (w1, inl e) ->
  execute hk (start cfg w d) =
  ({| self := cfg; world := w1; log := []; disk := d; tmp := None |},
   Raise (External e)).
Proof.
  intros Hmk. unfold execute, with_NamedTemporaryFile.
  cbn [start world self log disk tmp]. rewrite Hmk. reflexivity.
Qed.

Lemma tmp_removed_witness :
  ~ In "/tmp/tmpq1w2e3"
      (disk (fst (execute (sample_hooks false [] PNone)
                    (start (sample_operator None None None) tt
                       ["/tmp/tmpq1w2e3"; "/tmp/other"])))) /\
  tmp (fst (execute (sample_hooks false [] PNone)
              (start (sample_operator None None None) tt
                 ["/tmp/tmpq1w2e3"; "/tmp/other"]))) =
  Some {| name := "/tmp/tmpq1w2e3"; close_called := true |} /\
  In (EvTmpClose "/tmp/tmpq1w2e3")
     (log (fst (execute (sample_hooks false [] PNone)
                  (start (sample_operator None None None) tt
                     ["/tmp/tmpq1w2e3"; "/tmp/other"])))).
Proof.
  apply (@tmp_removed unit (sample_hooks false [] PNone)
           (sample_operator None None None) tt
           ["/tmp/tmpq1w2e3"; "/tmp/other"] tt "/tmp/tmpq1w2e3" _
           (Raise (External "SalesforceAuthenticationFailed")));
    reflexivity.
Defined.

(** ** The configuration *)

Lemma cfg_inv_relog W cfg (s : state W) (w : W) l d t :
  cfg_inv cfg s ->
  cfg_inv cfg {| self := self s; world := w; log := log s ++ l;
                 disk := d; tmp := t |}.
Proof.
  intros (Hs & Hf & Hl). repeat split; try apply Hs; auto.
  destruct Hl as [Hl | (fs & Hin & Hl)]; [left; exact Hl | right].
  exists fs. split; [apply in_or_app; left; exact Hin | exact Hl].
Qed.

Lemma cfg_inv_resolve_fields W (hk : hooks W) cfg :
  preserves (cfg_inv cfg) (resolve_fields hk).
Proof.
  intros s s' r Hs. pose proof Hs as (Hsame & Hf & Hl).
  unfold resolve_fields, bind, get_self, call, assign_fields, ret.
  destruct (truthy_fields (fields (self s))) eqn:Et; cbn [negb].
  - intros E; inversion E; subst; exact Hs.
  - assert (Hc : truthy_fields (fields cfg) = false).
    { destruct (truthy_fields (fields cfg)) eqn:Ec; [|reflexivity].
      rewrite (Hf eq_refl) in Et. congruence. }
    destruct (get_available_fields hk (object (self s)) (world s))
      as [w [e|fs]]; intros E; inversion E; subst; clear E.
    + now apply cfg_inv_relog.
    + cbn. repeat split; try apply Hsame.
      * rewrite Hc; discriminate.
      * right. exists fs. split; [|reflexivity].
        apply in_or_app; right; left.
        destruct Hsame as (_ & _ & _ & _ & -> & _). reflexivity.
Qed.

Lemma cfg_inv_tmp_close W cfg : preserves (cfg_inv cfg) (@tmp_close W).
Proof.
  intros s s' r Hs. unfold tmp_close.
  destruct (tmp s) as [[n c]|]; [destruct c|];
    intros E; inversion E; subst; try exact Hs.
  now apply cfg_inv_relog.
Qed.

Lemma cfg_inv_execute W (hk : hooks W) cfg w d s' r :
  execute hk (start cfg w d) = (s', r) -> cfg_inv cfg s'.
Proof.
  assert (H0 : cfg_inv cfg (start cfg w d)).
  { unfold cfg_inv, same_but_fields; cbn; tauto. }
  unfold execute, with_NamedTemporaryFile.
  destruct (mktemp hk (world (start cfg w d))) as [w1 [e|nm]].
  - intros E; inversion E; subst.
    apply (cfg_inv_relog w1 [] d None) in H0.
    cbn in H0 |- *. exact H0.
  - match goal with |- context [execute_body hk nm ?s] => set (s1 := s) end.
    assert (H1 : cfg_inv cfg s1) by now apply cfg_inv_relog.
    destruct (execute_body hk nm s1) as [s2 r2] eqn:E2.
    assert (H2 : cfg_inv cfg s2).
    { eapply (preserves_execute_body (hk := hk) (I := cfg_inv cfg)); eauto.
      - intros; now apply cfg_inv_relog.
      - apply cfg_inv_resolve_fields.
      - apply cfg_inv_tmp_close. }
    destruct (tmp_close s2) as [s3 r3] eqn:E3. intros E; inversion E; subst.
    eapply cfg_inv_tmp_close; eassumption.
Qed.

Lemma fields_overwritten W (hk : hooks W) cfg w d s' r :
  execute hk (start cfg w d) = (s', r) ->
  truthy_fields (fields cfg) = false ->
  (forall fs,
     In (EvGetAvailableFields (object cfg) (Some fs)) (log s') ->
     fields (self s') = Some fs) /\
  (r = Ok tt ->
   exists fs,
     In (EvGetAvailableFields (object cfg) (Some fs)) (log s') /\
     fields (self s') = Some fs).
Proof.
  intros H Hf. revert s' r H. run.
  all: try discriminate Hf.
  all: intros s' r' [= <- <-]; tidy.
  all: split;
    [ intros; in_log; fin
    | intros Hr;
      first [ discriminate Hr
            | eexists; split; [cbn; tauto | reflexivity] ] ].
Qed.

(** C2, as the code has it.  [execute] leaves every attribute but
    [fields] as [__init__] set it; [fields] too when it was a non-empty
    list; and when [fields] has changed it holds what
    [get_available_fields] returned for the object in this run.  When
    [fields] was empty or absent, the list the hook returns is written over
    it, and a run that returns has had it written. *)
Theorem config_kept_but_fields W (hk : hooks W) cfg w d s' r :
  execute hk (start cfg w d) = (s', r) ->
  same_but_fields cfg (self s') /\
  (truthy_fields (fields cfg) = true -> fields (self s') = fields cfg) /\
  (fields (self s') = fields cfg \/
   exists fs, In (EvGetAvailableFields (object cfg) (Some fs)) (log s') /\
              fields (self s') = Some fs) /\
  (truthy_fields (fields cfg) = false ->
   (forall fs,
      In (EvGetAvailableFields (object cfg) (Some fs)) (log s') ->
      fields (self s') = Some fs) /\
   (r = Ok tt ->
    exists fs,
      In (EvGetAvailableFields (object cfg) (Some fs)) (log s') /\
      fields (self s') = Some fs)).
Proof.
  intros H. destruct (cfg_inv_execute _ _ _ _ H) as (Hs & Hk & Hl).
  repeat (split; [assumption|]).
  intros Hf. exact (fields_overwritten _ _ _ _ H Hf).
Qed.

Lemma config_kept_but_fields_witness :
  (same_but_fields (sample_operator (Some ["Id"]) None None)
     (self (fst (execute (sample_hooks true ["Id"; "Name"] three_accounts)
                   (start (sample_operator (Some ["Id"]) None None) tt [])))) /\
   fields
     (self (fst (execute (sample_hooks true ["Id"; "Name"] three_accounts)
                   (start (sample_operator (Some ["Id"]) None None) tt [])))) =
   Some ["Id"]) /\
  (same_but_fields (sample_operator None None None)
     (self (fst (execute (sample_hooks true ["Id"; "Name"] three_accounts)
                   (start (sample_operator None None None) tt [])))) /\
   fields
     (self (fst (execute (sample_hooks true ["Id"; "Name"] three_accounts)
                   (start (sample_operator None None None) tt [])))) =
   Some ["Id"; "Name"]).
Proof.
  split.
  - destruct (@config_kept_but_fields unit
                (sample_hooks true ["Id"; "Name"] three_accounts)
                (sample_operator (Some ["Id"]) None None) tt [] _ _
                (surjective_pairing _))
      as (Hs & Hf & _).
    split; [exact Hs | exact (Hf eq_refl)].
  - destruct (@config_kept_but_fields unit
                (sample_hooks true ["Id"; "Name"] three_accounts)
                (sample_operator None None None) tt [] _ _
                (surjective_pairing _))
      as (Hs & _ & _ & Hw).
    split; [exact Hs|].
    apply (proj1 (Hw eq_refl)). vm_compute. tauto.
Defined.

(** C2 as stated fails: constructed without a field list, the operator
    holds the hook's listing in [fields] once [execute] has run. *)
Lemma config_unchanged_counterexample :
  fields (sample_operator None None None) = None /\
  fields
    (self (fst (execute (sample_hooks true ["Id"; "Name"] three_accounts)
                  (start (sample_operator None None None) tt [])))) =
  Some ["Id"; "Name"] /\
  self (fst (execute (sample_hooks true ["Id"; "Name"] three_accounts)
               (start (sample_operator None None None) tt []))) <>
  sample_operator None None None.
Proof.
  split; [reflexivity|]. split; [reflexivity|].
  intros H. apply (f_equal fields) in H. vm_compute in H. discriminate H.
Qed.

(** ** Which fetch runs *)

(** C8, as the code has it.  A run makes at most one fetch call.  When
    [self.query] is a non-empty string the only fetch it can make is
    [make_query] with that string; otherwise the only one is
    [get_object_from_salesforce] with the object and the resolved fields.
    A run that returns has made its one fetch; a run that makes none has
    raised before reaching it. *)
Theorem one_fetch W (hk : hooks W) cfg w d s' r :
  execute hk (start cfg w d) = (s', r) ->
  (filter is_fetch (log s') = [] /\ r <> Ok tt) \/
  (truthy_str (query cfg) = true /\
   filter is_fetch (log s') = [EvMakeQuery (query cfg)]) \/
  (truthy_str (query cfg) = false /\
   filter is_fetch (log s') =
   [EvGetObject (object cfg) (fields (self s'))]).
Proof.
  revert s' r. run.
  all: intros s' r' [= <- <-]; tidy; cbn [filter is_fetch is_make_query is_get_object orb].
  all: first [ left; split; [reflexivity | discriminate]
             | right; left; split; reflexivity
             | right; right; split; reflexivity ].
Qed.

Lemma one_fetch_witness :
  filter is_fetch
    (log (fst (execute (sample_hooks true ["Id"] three_accounts)
                 (start (sample_operator None (Some "SELECT Id FROM Account")
                           None) tt [])))) =
  [EvMakeQuery (Some "SELECT Id FROM Account")].
Proof.
  destruct (@one_fetch unit (sample_hooks true ["Id"] three_accounts)
              (sample_operator None (Some "SELECT Id FROM Account") None)
              tt [] _ _ (surjective_pairing _))
    as [[_ H] | [[_ H] | [H _]]].
  - exfalso. apply H. reflexivity.
  - exact H.
  - discriminate H.
Defined.

(** C8 as stated fails: with a query configured, a run whose sign-in
    raises makes neither fetch call. *)
Lemma one_fetch_counterexample :
  query (sample_operator None (Some "SELECT Id FROM Account") None) =
  Some "SELECT Id FROM Account" /\
  snd (execute (sample_hooks false ["Id"] three_accounts)
         (start (sample_operator None (Some "SELECT Id FROM Account") None)
            tt [])) =
  Raise (External "SalesforceAuthenticationFailed") /\
  existsb is_make_query
    (log (fst (execute (sample_hooks false ["Id"] three_accounts)
                 (start (sample_operator None (Some "SELECT Id FROM Account")
                           None) tt [])))) = false /\
  existsb is_get_object
    (log (fst (execute (sample_hooks false ["Id"] three_accounts)
                 (start (sample_operator None (Some "SELECT Id FROM Account")
                           None) tt [])))) = false.
Proof. repeat split; reflexivity. Qed.

(** ** Signing in again before a custom query *)

(** C9. In a run with a custom query, the sign-in and raw-query calls
    are, in order, a sign-in, a second sign-in and then the query, or the
    first calls of these when the run stops early.  So no run reaches
    [make_query] without two [sign_in] calls before it, the second right
    before it; and a run that returns has made all three. *)
Theorem sign_in_again_before_query W (hk : hooks W) cfg w d s' r :
  truthy_str (query cfg) = true ->
  execute hk (start cfg w d) = (s', r) ->
  (exists n,
     filter is_sign_in_or_query (log s') =
     firstn n [EvSignIn; EvSignIn; EvMakeQuery (query cfg)]) /\
  (existsb is_make_query (log s') = true \/ r = Ok tt ->
   filter is_sign_in_or_query (log s') =
   [EvSignIn; EvSignIn; EvMakeQuery (query cfg)]) /\
  (existsb is_make_query (log s') = true ->
   filter is_sign_in (before is_make_query (log s')) = [EvSignIn; EvSignIn] /\
   last (before is_make_query (log s')) EvConnectionClose = EvSignIn).
Proof.
  intros Hq. revert s' r. run.
  all: try discriminate Hq.
  all: intros s' r' [= <- <-]; tidy.
  all: split;
    [ first [ exists 0; reflexivity | exists 1; reflexivity
            | exists 2; reflexivity | exists 3; reflexivity ] |].
  all: split;
    [ intros [H|H]; first [discriminate H | reflexivity]
    | intros H; first [discriminate H | split; reflexivity] ].
Qed.

Lemma sign_in_again_before_query_witness :
  filter is_sign_in_or_query
    (log (fst (execute (sample_hooks true ["Id"] three_accounts)
                 (start (sample_operator None (Some "SELECT Id FROM Account")
                           None) tt [])))) =
  [EvSignIn; EvSignIn; EvMakeQuery (Some "SELECT Id FROM Account")].
Proof.
  apply (@sign_in_again_before_query unit
           (sample_hooks true ["Id"] three_accounts)
           (sample_operator None (Some "SELECT Id FROM Account") None)
           tt [] _ _ eq_refl (surjective_pairing _)).
  left. reflexivity.
Defined.

(** ** The upload *)

(** C6. A run that returns has called [load_file] exactly once, with
    [replace=True], the configured key and bucket and the name of the
    temporary file; the calls on that file are, in order: it is created,
    the hook writes the records to it, it is flushed, it is uploaded, it is
    closed. *)
Theorem upload_once W (hk : hooks W) cfg w d s' :
  execute hk (start cfg w d) = (s', Ok tt) ->
  exists nm records,
    filter is_load_file (log s') =
    [EvLoadFile nm (output cfg) (s3_bucket cfg) true] /\
    filter is_file_step (log s') =
    [EvTmpOpen nm;
     EvWriteObject records nm (fmt cfg) (coerce_to_timestamp cfg)
       (record_time_added cfg);
     EvFlush nm;
     EvLoadFile nm (output cfg) (s3_bucket cfg) true;
     EvTmpClose nm].
Proof.
  revert s'. run.
  all: intros s' H; try discriminate H.
  all: injection H as <-; tidy.
  all: eexists; eexists; split; reflexivity.
Qed.

Lemma upload_once_witness :
  filter is_load_file
    (log (fst (execute (sample_hooks true ["Id"] three_accounts)
                 (start (sample_operator None None None) tt [])))) =
  [EvLoadFile "/tmp/tmpq1w2e3" "output.csv" "bucket" true].
Proof.
  assert (E : execute (sample_hooks true ["Id"] three_accounts)
                (start (sample_operator None None None) tt []) =
              (fst (execute (sample_hooks true ["Id"] three_accounts)
                      (start (sample_operator None None None) tt [])),
               Ok tt)) by (vm_compute; reflexivity).
  destruct (upload_once _ _ _ _ E) as (nm & records & H1 & H2).
  vm_compute in H2. injection H2 as <- _. exact H1.
Defined.

(** ** The field list *)

(** C4. A run constructed without a field list asks the hook for the
    object's fields: whatever list the hook returns is what [self.fields]
    holds from then on, and a run that gets as far as the fetch has made
    that call once, for the configured object, and fetches by name with
    the list it returned.  A run constructed with a non-empty field list
    keeps that list, fetches by name with it and never calls
    [get_available_fields]. *)
Theorem fields_resolved W (hk : hooks W) cfg w d s' r :
  execute hk (start cfg w d) = (s', r) ->
  (fields cfg = None ->
   (forall fs,
      In (EvGetAvailableFields (object cfg) (Some fs)) (log s') ->
      fields (self s') = Some fs) /\
   (existsb is_fetch (log s') = true ->
    exists fs,
      filter is_get_available_fields (log s') =
      [EvGetAvailableFields (object cfg) (Some fs)] /\
      fields (self s') = Some fs /\
      forall o f, In (EvGetObject o f) (log s') -> f = Some fs)) /\
  (truthy_fields (fields cfg) = true ->
   filter is_get_available_fields (log s') = [] /\
   fields (self s') = fields cfg /\
   forall o f, In (EvGetObject o f) (log s') -> f = fields cfg).
Proof.
  revert s' r. run.
  all: intros s' r' [= <- <-]; tidy.
  all: split; [intros Hn; try discriminate Hn | intros Ht; try discriminate Ht].
  all: try (split; [reflexivity|]; split; [fin|]; intros; in_log; fin).
  all: split;
    [ intros; in_log; fin
    | intros Hf;
      first [ discriminate Hf
            | eexists; split; [reflexivity|]; split; [fin|];
              intros; in_log; fin ] ].
Qed.

Lemma fields_resolved_witness :
  fields
    (self (fst (execute (sample_hooks true ["Id"; "Name"] three_accounts)
                  (start (sample_operator None None None) tt [])))) =
  Some ["Id"; "Name"] /\
  filter is_get_available_fields
    (log (fst (execute (sample_hooks true ["Id"; "Name"] three_accounts)
                 (start (sample_operator (Some ["Id"]) None None) tt [])))) =
  [].
Proof.
  split.
  - apply (@fields_resolved unit
             (sample_hooks true ["Id"; "Name"] three_accounts)
             (sample_operator None None None) tt [] _ _
             (surjective_pairing _)).
    + reflexivity.
    + vm_compute. tauto.
  - apply (@fields_resolved unit
             (sample_hooks true ["Id"; "Name"] three_accounts)
             (sample_operator (Some ["Id"]) None None) tt [] _ _
             (surjective_pairing _)).
    reflexivity.
Defined.

(** C3, as the code has it.  When a fetch is made [self.fields] holds a
    list, and a fetch by name is given that list.  It is the configured
    list when that one is non-empty; otherwise it is the list
    [get_available_fields] returned for the object, which the operator
    uses as it comes. *)
Theorem fields_at_fetch W (hk : hooks W) cfg w d s' r :
  execute hk (start cfg w d) = (s', r) ->
  existsb is_fetch (log s') = true ->
  exists l,
    fields (self s') = Some l /\
    (forall o f, In (EvGetObject o f) (log s') -> f = Some l) /\
    ((fields cfg = Some l /\ l <> []) \/
     (truthy_fields (fields cfg) = false /\
      In (EvGetAvailableFields (object cfg) (Some l)) (log s'))).
Proof.
  revert s' r. run.
  all: intros s' r' [= <- <-]; tidy; intros Hf; try discriminate Hf.
  all: eexists; split; [reflexivity|]; split; [intros; in_log; fin|].
  all: first [ left; split; [fin | discriminate]
             | right; split; [reflexivity | cbn; tauto] ].
Qed.

Lemma fields_at_fetch_witness :
  exists l,
    fields
      (self (fst (execute (sample_hooks true ["Id"; "Name"] three_accounts)
                    (start (sample_operator None None None) tt [])))) =
    Some l /\ l = ["Id"; "Name"].
Proof.
  destruct (@fields_at_fetch unit
              (sample_hooks true ["Id"; "Name"] three_accounts)
              (sample_operator None None None) tt [] _ _
              (surjective_pairing _) eq_refl)
    as (l & Hl & Hfetch & _).
  exists l. split; [exact Hl|].
  specialize (Hfetch "Account" (Some ["Id"; "Name"])).
  vm_compute in Hfetch.
  assert (H : Some ["Id"; "Name"] = Some l) by (apply Hfetch; tauto).
  injection H as <-. reflexivity.
Defined.

(** C3 as stated fails: when the hook lists no field for the object, the
    fetch is made with the empty list. *)
Lemma fields_at_fetch_counterexample :
  fields (sample_operator None None None) = None /\
  log (fst (execute (sample_hooks true [] three_accounts)
              (start (sample_operator None None None) tt []))) =
  [EvTmpOpen "/tmp/tmpq1w2e3";
   EvSalesforceHook "salesforce_default" "/tmp/tmpq1w2e3";
   EvSignIn;
   EvGetAvailableFields "Account" (Some []);
   EvGetObject "Account" (Some []);
   EvWriteObject
     (PList [PDict [("Id", PStr "001")]; PDict [("Id", PStr "002")];
             PDict [("Id", PStr "003")]])
     "/tmp/tmpq1w2e3" "csv" false false;
   EvFlush "/tmp/tmpq1w2e3";
   EvS3Hook "s3_default";
   EvLoadFile "/tmp/tmpq1w2e3" "output.csv" "bucket" true;
   EvConnectionClose;
   EvTmpClose "/tmp/tmpq1w2e3"] /\
  truthy_fields
    (fields
       (self (fst (execute (sample_hooks true [] three_accounts)
                     (start (sample_operator None None None) tt []))))) =
  false.
Proof. repeat split; reflexivity. Qed.

(** ** The guard of [special_query] *)








(** ** An empty field list *)

(** C10. Constructed with [fields=[]], the operator runs as it does
    with [fields=None]: the same calls in the same order, the same
    outcome, the same attributes but for [fields] in a run that stops
    before the listing.  A run that gets as far as the fetch has asked the
    hook for the object's fields and fetches by name with that list.  A
    run that returns has asked the hook once, holds the hook's list in
    [fields] as the run from [None] does, and has made its one fetch: by
    name with that list, or the custom query when one is configured. *)
Theorem empty_fields_as_none W (hk : hooks W) cfg w d s1 r1 s2 r2 :
  fields cfg = Some [] ->
  execute hk (start cfg w d) = (s1, r1) ->
  execute hk (start (set_fields cfg None) w d) = (s2, r2) ->
  r1 = r2 /\ log s1 = log s2 /\ world s1 = world s2 /\
  disk s1 = disk s2 /\ tmp s1 = tmp s2 /\
  same_but_fields (self s2) (self s1) /\
  (existsb is_fetch (log s1) = true ->
   exists fs,
     filter is_get_available_fields (log s1) =
     [EvGetAvailableFields (object cfg) (Some fs)] /\
     fields (self s1) = Some fs /\ fields (self s2) = Some fs /\
     forall o f, In (EvGetObject o f) (log s1) -> f = Some fs) /\
  (r1 = Ok tt ->
   exists fs,
     filter is_get_available_fields (log s1) =
     [EvGetAvailableFields (object cfg) (Some fs)] /\
     fields (self s1) = Some fs /\
     self s1 = self s2 /\
     filter is_fetch (log s1) =
     (if truthy_str (query cfg) then [EvMakeQuery (query cfg)]
      else [EvGetObject (object cfg) (Some fs)])).
Proof.
  intros Hf. destruct cfg; cbn in Hf; subst.
  revert s1 r1 s2 r2. run.
  all: intros ? ? ? ? [= <- <-] [= <- <-]; tidy.
  all: repeat (split; [reflexivity|]).
  all: split; [unfold same_but_fields; cbn; tauto|].
  all: split;
    [ intros Hfetch;
      first [ discriminate Hfetch
            | eexists; repeat (split; [reflexivity|]); intros; in_log; fin ]
    | intros Hr;
      first [ discriminate Hr
            | eexists; repeat (split; [reflexivity|]); reflexivity ] ].
Qed.

Lemma empty_fields_as_none_witness :
  log (fst (execute (sample_hooks true ["Id"; "Name"] three_accounts)
              (start (sample_operator (Some []) None None) tt []))) =
  log (fst (execute (sample_hooks true ["Id"; "Name"] three_accounts)
              (start (sample_operator None None None) tt []))) /\
  exists fs,
    filter is_get_available_fields
      (log (fst (execute (sample_hooks true ["Id"; "Name"] three_accounts)
                   (start (sample_operator (Some []) None None) tt [])))) =
    [EvGetAvailableFields "Account" (Some fs)] /\
    filter is_fetch
      (log (fst (execute (sample_hooks true ["Id"; "Name"] three_accounts)
                   (start (sample_operator (Some []) None None) tt [])))) =
    [EvGetObject "Account" (Some fs)].
Proof.
  assert (E : execute (sample_hooks true ["Id"; "Name"] three_accounts)
                (start (sample_operator (Some []) None None) tt []) =
              (fst (execute (sample_hooks true ["Id"; "Name"] three_accounts)
                      (start (sample_operator (Some []) None None) tt [])),
               Ok tt)) by (vm_compute; reflexivity).
  destruct (@empty_fields_as_none unit
              (sample_hooks true ["Id"; "Name"] three_accounts)
              (sample_operator (Some []) None None) tt [] _ _ _ _
              eq_refl E (surjective_pairing _))
    as (_ & Hlog & _ & _ & _ & _ & _ & Hok).
  split; [exact Hlog|].
  destruct (Hok eq_refl) as (fs & Hl & _ & _ & Hfetch).
  exists fs. split; [exact Hl | exact Hfetch].
Defined.

(** ** Flattening a relationship *)

Lemma lookup_update k v d : lookup k (update k v d) = Some v.
Proof.
  induction d as [|[k' v'] d IH]; cbn.
  - rewrite String.eqb_refl. reflexivity.
  - destruct (String.eqb k k') eqn:E; cbn; rewrite E; [reflexivity | exact IH].
Qed.

(** C5. A custom query whose result holds the records
    [[{Contacts: {records: [A, B]}}, {other: 1}]], run with
    [relationship_object="Contacts"], returns the result with [[A, B]] for
    its records: the nested records in order, the record without the
    relationship left out. *)
Theorem special_query_flattens W (hk : hooks W) (s : state W) q w1 w2 d A B :
  truthy_str q = true ->
  sign_in hk (world s) = (w1, inr tt) ->
  make_query hk q w1 = (w2, inr (PDict d)) ->
  lookup "records" d =
  Some (PList [PDict [("Contacts", PDict [("records", PList [A; B])])];
               PDict [("other", PInt 1)]]) ->
  exists s',
    special_query hk q (Some "Contacts") s =
    (s', Ok (PDict (update "records" (PList [A; B]) d))) /\
    py_getitem (PDict (update "records" (PList [A; B]) d)) "records" =
    Ok (PList [A; B]).
Proof.
  intros Hq Hs Hm Hl.
  unfold special_query, bind, call, lift. rewrite Hq. cbn [negb].
  rewrite Hs. cbn [world]. rewrite Hm.
  unfold flatten. cbn [py_getitem]. rewrite Hl. cbn.
  eexists. split; [reflexivity|].
  rewrite lookup_update. reflexivity.
Qed.

Lemma special_query_flattens_witness :
  snd (special_query
         (sample_hooks true []
            (PDict [("totalSize", PInt 2); ("done", PBool true);
                    ("records",
                     PList [PDict [("Contacts",
                                    PDict [("records",
                                            PList [PDict [("Name", PStr "Ann")];
                                                   PDict [("Name", PStr "Bob")]])])];
                            PDict [("other", PInt 1)]])]))
         (Some "SELECT Name, (SELECT Name FROM Contacts) FROM Account")
         (Some "Contacts")
         (start (sample_operator None None (Some "Contacts")) tt [])) =
  Ok (PDict [("totalSize", PInt 2); ("done", PBool true);
             ("records", PList [PDict [("Name", PStr "Ann")];
                                PDict [("Name", PStr "Bob")]])]).
Proof.
  destruct (@special_query_flattens unit
              (sample_hooks true []
                 (PDict [("totalSize", PInt 2); ("done", PBool true);
                         ("records",
                          PList [PDict [("Contacts",
                                         PDict [("records",
                                                 PList [PDict [("Name", PStr "Ann")];
                                                        PDict [("Name", PStr "Bob")]])])];
                                 PDict [("other", PInt 1)]])]))
              (start (sample_operator None None (Some "Contacts")) tt [])
              (Some "SELECT Name, (SELECT Name FROM Contacts) FROM Account")
              tt tt _ _ _ eq_refl eq_refl eq_refl eq_refl)
    as (s' & H & _).
  rewrite H. reflexivity.
Defined.

(** ** More on flattening *)

(** The loop goes through a list in two parts as through the first part and
    then, from what that collected, through the second. *)
Lemma flatten_loop_app rel rs1 : forall rs2 records,
  flatten_loop rel (rs1 ++ rs2) records =
  bindR (flatten_loop rel rs1 records) (flatten_loop rel rs2).
Proof.
  induction rs1 as [|r rs1 IH]; intros rs2 records; [reflexivity|].
  cbn [app flatten_loop].
  destruct (py_get r rel) as [g|e]; cbn [bindR]; [|reflexivity].
  destruct (truthy g); [|apply IH].
  destruct (py_getitem r rel) as [x|e]; cbn [bindR]; [|reflexivity].
  destruct (py_getitem x "records") as [n|e]; cbn [bindR]; [|reflexivity].
  destruct (py_iter n) as [ys|e]; cbn [bindR]; [apply IH | reflexivity].
Qed.

Lemma flatten_loop_shaped rel rs ls :
  Forall2 (record_shape rel) rs ls ->
  forall records,
    flatten_loop rel rs records = Ok (records ++ concat ls)%list.
Proof.
  induction 1 as [|r l rs ls Hr _ IH]; intros records; cbn [flatten_loop concat].
  - rewrite app_nil_r. reflexivity.
  - destruct Hr as [d Hd | d v Hd Hv | d kv d' l Hd Hl];
      cbn [py_get py_getitem bindR]; rewrite Hd; cbn [truthy bindR].
    + apply IH.
    + rewrite Hv. apply IH.
    + cbn [py_getitem]. rewrite Hl. cbn [bindR py_iter].
      rewrite IH, app_assoc. reflexivity.
Qed.

Lemma lookup_update_other k k' v d :
  k' <> k -> lookup k' (update k v d) = lookup k' d.
Proof.
  intros Hk. induction d as [|[k0 v0] d IH]; cbn.
  - destruct (String.eqb k' k) eqn:E; [|reflexivity].
    apply String.eqb_eq in E. contradiction.
  - destruct (String.eqb k k0) eqn:E; cbn.
    + apply String.eqb_eq in E. subst k0.
      destruct (String.eqb k' k) eqn:E'; [|reflexivity].
      apply String.eqb_eq in E'. contradiction.
    + rewrite IH. reflexivity.
Qed.

Lemma update_keys k v d v0 :
  lookup k d = Some v0 -> map fst (update k v d) = map fst d.
Proof.
  induction d as [|[k0 v1] d IH]; cbn; [discriminate|].
  destruct (String.eqb k k0); cbn; [reflexivity|].
  intros H. rewrite IH by exact H. reflexivity.
Qed.

Lemma flatten_loop_acc rel rs : forall records,
  flatten_loop rel rs records =
  bindR (flatten_loop rel rs []) (fun tail => Ok (records ++ tail)%list).
Proof.
  induction rs as [|r rs IH]; intros records; cbn [flatten_loop].
  - cbn. rewrite app_nil_r. reflexivity.
  - destruct (py_get r rel) as [g|e]; cbn [bindR]; [|reflexivity].
    destruct (truthy g); [|apply IH].
    destruct (py_getitem r rel) as [x|e]; cbn [bindR]; [|reflexivity].
    destruct (py_getitem x "records") as [n|e]; cbn [bindR]; [|reflexivity].
    destruct (py_iter n) as [ys|e]; cbn [bindR]; [|reflexivity].
    rewrite (IH (records ++ ys)%list), (IH ([] ++ ys)%list).
    destruct (flatten_loop rel rs []) as [tail|e]; cbn; [|reflexivity].
    rewrite app_assoc. reflexivity.
Qed.

Lemma flatten_shaped rel d rs ls :
  lookup "records" d = Some (PList rs) ->
  Forall2 (record_shape rel) rs ls ->
  flatten rel (PDict d) = Ok (PDict (update "records" (PList (concat ls)) d)).
Proof.
  intros Hd Hs. unfold flatten. cbn [py_getitem]. rewrite Hd.
  cbn [bindR py_iter]. rewrite (flatten_loop_shaped Hs). reflexivity.
Qed.

(** X1. When every top-level record is shaped as Salesforce shapes it,
    the flattened result holds, under ['records'], the nested lists one
    after the other in the order of the top-level records; a record without
    the relationship, or with [None] or an empty value there, adds
    nothing. *)
Theorem flatten_concat rel d rs ls :
  lookup "records" d = Some (PList rs) ->
  Forall2 (record_shape rel) rs ls ->
  flatten rel (PDict d) = Ok (PDict (update "records" (PList (concat ls)) d)) /\
  py_getitem (PDict (update "records" (PList (concat ls)) d)) "records" =
  Ok (PList (concat ls)).
Proof.
  intros Hd Hs. split; [eapply flatten_shaped; eassumption|].
  cbn [py_getitem]. rewrite lookup_update. reflexivity.
Qed.

Lemma flatten_concat_witness :
  flatten "Contacts"
    (PDict [("records",
             PList [PDict [("Name", PStr "Acme"); ("Contacts", PNone)];
                    PDict [("Name", PStr "Initech");
                           ("Contacts",
                            PDict [("totalSize", PInt 1);
                                   ("records",
                                    PList [PDict [("Name", PStr "Ann")]])])];
                    PDict [("Name", PStr "Hooli")]])]) =
  Ok (PDict [("records", PList [PDict [("Name", PStr "Ann")]])]).
Proof.
  apply (@flatten_concat "Contacts"
           [("records",
             PList [PDict [("Name", PStr "Acme"); ("Contacts", PNone)];
                    PDict [("Name", PStr "Initech");
                           ("Contacts",
                            PDict [("totalSize", PInt 1);
                                   ("records",
                                    PList [PDict [("Name", PStr "Ann")]])])];
                    PDict [("Name", PStr "Hooli")]])]
           _ [[]; [PDict [("Name", PStr "Ann")]]; []] eq_refl).
  apply Forall2_cons; [apply shape_falsy with (v := PNone); reflexivity|].
  apply Forall2_cons; [eapply shape_nested; reflexivity|].
  apply Forall2_cons; [apply shape_absent; reflexivity|].
  apply Forall2_nil.
Defined.

(** X2. Flattening goes along with concatenation: the records collected
    from two lists put end to end are those of the first followed by those
    of the second. *)
Theorem flatten_loop_concat rel rs1 rs2 l1 l2 :
  flatten_loop rel rs1 [] = Ok l1 ->
  flatten_loop rel rs2 [] = Ok l2 ->
  flatten_loop rel (rs1 ++ rs2) [] = Ok (l1 ++ l2)%list.
Proof.
  intros H1 H2. rewrite flatten_loop_app, H1. cbn [bindR].
  rewrite flatten_loop_acc, H2. reflexivity.
Qed.

Lemma flatten_loop_concat_witness :
  flatten_loop "Contacts"
    ([PDict [("Contacts", PDict [("records", PList [PInt 1; PInt 2])])]] ++
     [PDict [("other", PInt 1)];
      PDict [("Contacts", PDict [("records", PList [PInt 3])])]]) [] =
  Ok [PInt 1; PInt 2; PInt 3].
Proof.
  apply (@flatten_loop_concat "Contacts" _ _ [PInt 1; PInt 2] [PInt 3]);
    reflexivity.
Defined.

(** X3. A flattening that succeeds was given a [dict] and returns it with
    the same keys in the same order; every value but the one under
    ['records'] is as the hook returned it, ['totalSize'] included. *)
Theorem flatten_keeps_other_keys rel v v' :
  flatten rel v = Ok v' ->
  exists d d',
    v = PDict d /\ v' = PDict d' /\
    map fst d' = map fst d /\
    forall k, k <> "records" -> lookup k d' = lookup k d.
Proof.
  unfold flatten. destruct v as [| | | | |d]; try discriminate.
  cbn [py_getitem]. destruct (lookup "records" d) as [top|] eqn:Hd;
    [|discriminate].
  cbn [bindR]. destruct (py_iter top) as [rs|]; [|discriminate].
  cbn [bindR]. destruct (flatten_loop rel rs []) as [records|]; [|discriminate].
  cbn. intros [= <-]. exists d. eexists. repeat split.
  - eapply update_keys; eassumption.
  - intros k Hk. apply lookup_update_other; exact Hk.
Qed.

Lemma flatten_keeps_other_keys_witness :
  exists d',
    flatten "Contacts"
      (PDict [("totalSize", PInt 2); ("done", PBool true);
              ("records",
               PList [PDict [("Contacts",
                              PDict [("records", PList [PInt 1; PInt 2; PInt 3])])];
                      PDict [("other", PInt 1)]])]) = Ok (PDict d') /\
    lookup "totalSize" d' = Some (PInt 2).
Proof.
  destruct (@flatten_keeps_other_keys "Contacts"
              (PDict [("totalSize", PInt 2); ("done", PBool true);
                      ("records",
                       PList [PDict [("Contacts",
                                      PDict [("records",
                                              PList [PInt 1; PInt 2; PInt 3])])];
                              PDict [("other", PInt 1)]])])
              _ eq_refl) as (d & d' & Hv & Hv' & _ & Hk).
  exists d'. split.
  - rewrite <- Hv'. reflexivity.
  - injection Hv as <-. rewrite Hk by discriminate. reflexivity.
Defined.

(** X4. A top-level record that is not a [dict], coming after records of
    the usual shape, stops the loop with an [AttributeError], whatever
    follows it. *)
Theorem flatten_loop_not_dict rel pre ls r post records :
  Forall2 (record_shape rel) pre ls ->
  is_dict r = false ->
  flatten_loop rel (pre ++ r :: post) records = Raise AttributeError.
Proof.
  intros Hs Hr. rewrite flatten_loop_app, (flatten_loop_shaped Hs).
  cbn [bindR flatten_loop]. destruct r; try discriminate Hr; reflexivity.
Qed.

Lemma flatten_loop_not_dict_witness :
  flatten_loop "Contacts"
    ([PDict [("Contacts", PDict [("records", PList [PInt 1])])]] ++
     PStr "Account" :: [PDict [("other", PInt 1)]]) [] =
  Raise AttributeError.
Proof.
  apply (@flatten_loop_not_dict "Contacts" _ [[PInt 1]]).
  - apply Forall2_cons; [eapply shape_nested; reflexivity | apply Forall2_nil].
  - reflexivity.
Defined.

(** X5. A record whose relationship holds a non-empty [dict] without
    ['records'], coming after records of the usual shape, stops the loop
    with [KeyError('records')]. *)
Theorem flatten_loop_no_records rel pre ls d kv d' post records :
  Forall2 (record_shape rel) pre ls ->
  lookup rel d = Some (PDict (kv :: d')) ->
  lookup "records" (kv :: d') = None ->
  flatten_loop rel (pre ++ PDict d :: post) records =
  Raise (KeyError "records").
Proof.
  intros Hs Hd Hn. rewrite flatten_loop_app, (flatten_loop_shaped Hs).
  cbn [bindR flatten_loop py_get py_getitem]. rewrite Hd.
  cbn [truthy bindR py_getitem]. rewrite Hn. reflexivity.
Qed.

Lemma flatten_loop_no_records_witness :
  flatten_loop "Contacts"
    ([] ++ PDict [("Contacts", PDict [("totalSize", PInt 0)])] :: []) [] =
  Raise (KeyError "records").
Proof.
  apply (@flatten_loop_no_records "Contacts" [] [] _ ("totalSize", PInt 0) []).
  - constructor.
  - reflexivity.
  - reflexivity.
Defined.

(** ** More on a run *)

(** X6. In any run, returning or raising, [load_file] is called at most
    once, and when it is called the file has been created, written by the
    hook and flushed before, in that order, and not yet closed. *)
Theorem upload_needs_flush W (hk : hooks W) cfg w d s' r :
  execute hk (start cfg w d) = (s', r) ->
  filter is_load_file (log s') = [] \/
  exists nm records,
    filter is_load_file (log s') =
    [EvLoadFile nm (output cfg) (s3_bucket cfg) true] /\
    filter is_file_step (before is_load_file (log s')) =
    [EvTmpOpen nm;
     EvWriteObject records nm (fmt cfg) (coerce_to_timestamp cfg)
       (record_time_added cfg);
     EvFlush nm].
Proof.
  revert s' r. run.
  all: intros s' r' [= <- <-]; tidy.
  all: first [ left; reflexivity
             | right; eexists; eexists; split; reflexivity ].
Qed.

(** X7. The exceptions of the operator's own making ([KeyError],
    [TypeError], [AttributeError]) come from reading the fetched result: a
    run that raises one of them has made its fetch, has written nothing to
    the file and has uploaded nothing. *)
Theorem own_error_after_fetch W (hk : hooks W) cfg w d s' e :
  execute hk (start cfg w d) = (s', Raise e) ->
  is_external e = false ->
  length (filter is_fetch (log s')) = 1 /\
  existsb is_write_object (log s') = false /\
  existsb is_load_file (log s') = false.
Proof.
  revert s' e. run.
  all: intros s' e' H; try discriminate H.
  all: injection H as <- <-; tidy; intros He; try discriminate He.
  all: repeat split; reflexivity.
Qed.

Lemma own_error_after_fetch_witness :
  existsb is_write_object
    (log (fst (execute (sample_hooks true ["Id"] (PDict [("done", PBool true)]))
                 (start (sample_operator None None None) tt [])))) = false.
Proof.
  assert (E : execute (sample_hooks true ["Id"] (PDict [("done", PBool true)]))
                (start (sample_operator None None None) tt []) =
              (fst (execute
                      (sample_hooks true ["Id"] (PDict [("done", PBool true)]))
                      (start (sample_operator None None None) tt [])),
               Raise (KeyError "records"))) by (vm_compute; reflexivity).
  apply (own_error_after_fetch _ _ _ _ E). reflexivity.
Defined.

Lemma successful_run W (hk : hooks W) cfg w d s' :
  execute hk (start cfg w d) = (s', Ok tt) ->
  exists nm records,
    log s' =
    ([EvTmpOpen nm; EvSalesforceHook (sf_conn_id cfg) nm; EvSignIn] ++
     (if truthy_fields (fields cfg) then []
      else [EvGetAvailableFields (object cfg) (fields (self s'))]) ++
     (if truthy_str (query cfg) then [EvSignIn; EvMakeQuery (query cfg)]
      else [EvGetObject (object cfg) (fields (self s'))]) ++
     [EvWriteObject records nm (fmt cfg) (coerce_to_timestamp cfg)
        (record_time_added cfg);
      EvFlush nm;
      EvS3Hook (s3_conn_id cfg);
      EvLoadFile nm (output cfg) (s3_bucket cfg) true;
      EvConnectionClose;
      EvTmpClose nm])%list.
Proof.
  revert s'. run.
  all: intros s' H; try discriminate H.
  all: injection H as <-; tidy.
  all: eexists; eexists; reflexivity.
Qed.

(** X8. The calls of a run that returns, from first to last: the file is
    created; the Salesforce hook is built on its name; sign-in; the field
    listing, unless a non-empty list was configured; a second sign-in and
    the query, or the fetch by name; the write; the flush; the S3 hook; the
    upload; the closing of the S3 connection; the closing of the file. *)
Theorem successful_run_log W (hk : hooks W) cfg w d s' :
  execute hk (start cfg w d) = (s', Ok tt) ->
  exists nm records,
    log s' =
    ([EvTmpOpen nm; EvSalesforceHook (sf_conn_id cfg) nm; EvSignIn] ++
     (if truthy_fields (fields cfg) then []
      else [EvGetAvailableFields (object cfg) (fields (self s'))]) ++
     (if truthy_str (query cfg) then [EvSignIn; EvMakeQuery (query cfg)]
      else [EvGetObject (object cfg) (fields (self s'))]) ++
     [EvWriteObject records nm (fmt cfg) (coerce_to_timestamp cfg)
        (record_time_added cfg);
      EvFlush nm;
      EvS3Hook (s3_conn_id cfg);
      EvLoadFile nm (output cfg) (s3_bucket cfg) true;
      EvConnectionClose;
      EvTmpClose nm])%list.
Proof.
  revert s'. run.
  all: intros s' H; try discriminate H.
  all: injection H as <-; tidy.
  all: eexists; eexists; reflexivity.
Qed.

Lemma upload_needs_flush_witness :
  exists nm records,
    filter is_load_file
      (log (fst (execute (sample_hooks true ["Id"] three_accounts)
                   (start (sample_operator None None None) tt [])))) =
    [EvLoadFile nm "output.csv" "bucket" true] /\
    filter is_file_step
      (before is_load_file
         (log (fst (execute (sample_hooks true ["Id"] three_accounts)
                      (start (sample_operator None None None) tt []))))) =
    [EvTmpOpen nm; EvWriteObject records nm "csv" false false; EvFlush nm].
Proof.
  destruct (@upload_needs_flush unit (sample_hooks true ["Id"] three_accounts)
              (sample_operator None None None) tt [] _ _
              (surjective_pairing _)) as [Hnone | Hsome].
  - vm_compute in Hnone. discriminate Hnone.
  - exact Hsome.
Defined.

Lemma successful_run_log_witness :
  exists nm records,
    log (fst (execute (sample_hooks true ["Id"] three_accounts)
                (start (sample_operator None (Some "SELECT Id FROM Account")
                          None) tt []))) =
    [EvTmpOpen nm; EvSalesforceHook "salesforce_default" nm; EvSignIn;
     EvGetAvailableFields "Account" (Some ["Id"]);
     EvSignIn; EvMakeQuery (Some "SELECT Id FROM Account");
     EvWriteObject records nm "csv" false false;
     EvFlush nm; EvS3Hook "s3_default";
     EvLoadFile nm "output.csv" "bucket" true;
     EvConnectionClose; EvTmpClose nm].
Proof.
  assert (E : execute (sample_hooks true ["Id"] three_accounts)
                (start (sample_operator None (Some "SELECT Id FROM Account")
                          None) tt []) =
              (fst (execute (sample_hooks true ["Id"] three_accounts)
                      (start (sample_operator None
                                (Some "SELECT Id FROM Account") None) tt [])),
               Ok tt)) by (vm_compute; reflexivity).
  destruct (successful_run_log _ _ _ _ E) as (nm & records & H).
  exists nm, records. rewrite H. reflexivity.
Defined.

Lemma remove_head nm d :
  remove string_dec nm (nm :: d) = remove string_dec nm d.
Proof.
  cbn [remove]. destruct (string_dec nm nm) as [_|Hne];
    [reflexivity | exfalso; apply Hne; reflexivity].
Qed.

(** X9. Once the temporary file has been created, a run closes it
    exactly once, as the last thing it does: [tmp.close()] at the end of the
    body and the end of the [with] block do not close it twice.  Of the
    files on disk the run takes away that one and no other. *)
Theorem tmp_closed_once W (hk : hooks W) cfg w d w1 nm s' r :
  mktemp hk w = (w1, inr nm) ->
  execute hk (start cfg w d) = (s', r) ->
  hd_error (log s') = Some (EvTmpOpen nm) /\
  filter is_tmp_close (log s') = [EvTmpClose nm] /\
  last (log s') EvSignIn = EvTmpClose nm /\
  disk s' = remove string_dec nm d.
Proof.
  intros Hmk. revert s' r. run.
  all: first [discriminate Hmk | injection Hmk as <- <-].
  all: intros s' r' [= <- <-]; tidy.
  all: repeat (split; [reflexivity|]).
  all: apply remove_head.
Qed.

Lemma tmp_closed_once_witness :
  disk (fst (execute (sample_hooks true ["Id"] three_accounts)
               (start (sample_operator None None None) tt
                  ["/tmp/kept"; "/tmp/tmpq1w2e3"]))) =
  remove string_dec "/tmp/tmpq1w2e3" ["/tmp/kept"; "/tmp/tmpq1w2e3"].
Proof.
  apply (@tmp_closed_once unit (sample_hooks true ["Id"] three_accounts)
           (sample_operator None None None) tt
           ["/tmp/kept"; "/tmp/tmpq1w2e3"] tt "/tmp/tmpq1w2e3" _ _
           eq_refl (surjective_pairing _)).
Defined.

(** X10. When the first sign-in raises, [execute] raises the same
    exception: it has made no other Salesforce call and no S3 call, the
    operator's attributes are untouched and the temporary file is
    removed. *)
Theorem sign_in_failure W (hk : hooks W) cfg w d w0 w1 w2 nm u e :
  mktemp hk w = (w0, inr nm) ->
  salesforce_hook hk (sf_conn_id cfg) nm w0 = (w1, inr u) ->
  sign_in hk w1 = (w2, inl e) ->
  execute hk (start cfg w d) =
  ({| self := cfg; world := w2;
      log := [EvTmpOpen nm; EvSalesforceHook (sf_conn_id cfg) nm; EvSignIn;
              EvTmpClose nm];
      disk := remove string_dec nm d;
      tmp := Some {| name := nm; close_called := true |} |},
   Raise (External e)).
Proof.
  intros H0 H1 H2. unfold_run. tidy.
  rewrite H0. tidy. rewrite H1. tidy. rewrite H2. tidy.
  rewrite remove_head. reflexivity.
Qed.

Lemma sign_in_failure_witness :
  snd (execute (sample_hooks false ["Id"] three_accounts)
         (start (sample_operator None None None) tt [])) =
  Raise (External "SalesforceAuthenticationFailed").
Proof.
  rewrite (@sign_in_failure unit (sample_hooks false ["Id"] three_accounts)
             (sample_operator None None None) tt [] tt tt tt
             "/tmp/tmpq1w2e3" tt "SalesforceAuthenticationFailed"
             eq_refl eq_refl eq_refl).
  reflexivity.
Defined.

(** ** From the constructor to the calls *)

(** X11. What [__init__] is given is what the calls of a run that returns
    receive: the Salesforce hook the connection id, the fetch the object
    or the query, [write_object_to_file] the format in lower case and the
    two flags each under its own name, the S3 hook its connection id, and
    [load_file] the output name as key and the bucket. *)
Theorem init_then_execute W (hk : hooks W) (lower : string -> string)
    sf obj out s3c bkt fs fm q rel rta cts w d s' :
  execute hk (start (init lower sf obj out s3c bkt fs fm q rel rta cts) w d) =
  (s', Ok tt) ->
  exists nm records,
    In (EvSalesforceHook sf nm) (log s') /\
    (if truthy_str q then In (EvMakeQuery q) (log s')
     else In (EvGetObject obj (fields (self s'))) (log s')) /\
    In (EvWriteObject records nm (lower fm) cts rta) (log s') /\
    In (EvS3Hook s3c) (log s') /\
    In (EvLoadFile nm out bkt true) (log s').
Proof.
  intros H. destruct (successful_run _ _ _ _ H) as (nm & records & Hl).
  exists nm, records. rewrite Hl. clear Hl H.
  cbn [init sf_conn_id output s3_conn_id s3_bucket object fields fmt query
       relationship_object record_time_added coerce_to_timestamp].
  rewrite !in_app_iff.
  destruct (truthy_str q); rewrite !in_app_iff; cbn [In]; tauto.
Qed.

Lemma init_then_execute_witness :
  exists nm records,
    In (EvWriteObject records nm "csv" true false)
       (log (fst (execute (sample_hooks true ["Id"] three_accounts)
                    (start (init (fun _ => "csv") "salesforce_default"
                              "Account" "output.csv" "s3_default" "bucket"
                              None "CSV" None None false true) tt [])))).
Proof.
  assert (E : execute (sample_hooks true ["Id"] three_accounts)
                (start (init (fun _ => "csv") "salesforce_default"
                          "Account" "output.csv" "s3_default" "bucket"
                          None "CSV" None None false true) tt []) =
              (fst (execute (sample_hooks true ["Id"] three_accounts)
                      (start (init (fun _ => "csv") "salesforce_default"
                                "Account" "output.csv" "s3_default" "bucket"
                                None "CSV" None None false true) tt [])),
               Ok tt)) by (vm_compute; reflexivity).
  destruct (init_then_execute _ _ _ _ _ _ _ _ _ _ _ _ _ _ _ E)
    as (nm & records & _ & _ & Hw & _).
  exists nm, records. exact Hw.
Defined.

(** ** From the fetch to the file *)

(** X12. In a run that fetches by name, what the hook is asked to write
    is what the fetched result holds under ['records'], and it is asked
    once. *)
Theorem written_records_named W (hk : hooks W) cfg w d w0 w1 w2 w3 nm u u'
    q records :
  mktemp hk w = (w0, inr nm) ->
  salesforce_hook hk (sf_conn_id cfg) nm w0 = (w1, inr u) ->
  sign_in hk w1 = (w2, inr u') ->
  truthy_fields (fields cfg) = true ->
  truthy_str (query cfg) = false ->
  get_object_from_salesforce hk (object cfg) (fields cfg) w2 = (w3, inr q) ->
  py_getitem q "records" = Ok records ->
  filter is_write_object (log (fst (execute hk (start cfg w d)))) =
  [EvWriteObject records nm (fmt cfg) (coerce_to_timestamp cfg)
     (record_time_added cfg)].
Proof.
  intros H0 H1 H2 Hf Hq H3 Hr. destruct cfg; tidy.
  destruct fields0 as [[|f l]|]; try discriminate Hf.
  destruct query0 as [[|c qs]|]; try discriminate Hq.
  all: unfold_run; tidy; rewrite H0; tidy; rewrite H1; tidy; rewrite H2; tidy;
    rewrite H3; tidy; rewrite Hr.
  all: repeat (split_call; tidy); reflexivity.
Qed.

Lemma written_records_named_witness :
  filter is_write_object
    (log (fst (execute (sample_hooks true [] three_accounts)
                 (start (sample_operator (Some ["Id"]) None None) tt [])))) =
  [EvWriteObject
     (PList [PDict [("Id", PStr "001")]; PDict [("Id", PStr "002")];
             PDict [("Id", PStr "003")]])
     "/tmp/tmpq1w2e3" "csv" false false].
Proof.
  apply (@written_records_named unit (sample_hooks true [] three_accounts)
           (sample_operator (Some ["Id"]) None None) tt [] tt tt tt tt
           "/tmp/tmpq1w2e3" tt tt three_accounts);
    reflexivity.
Defined.

(** X13. In a run with a custom query and a relationship object, what the
    hook is asked to write is the flattened list: the nested records of the
    query's result, in order.  [w2'] is the world the second sign-in
    finds: the one the first sign-in left when a non-empty field list is
    configured, the one the field listing left otherwise. *)
Theorem written_records_flattened W (hk : hooks W) cfg w d w0 w1 w2 w2' w3 w4
    nm u u' u'' rel dct rs ls :
  mktemp hk w = (w0, inr nm) ->
  salesforce_hook hk (sf_conn_id cfg) nm w0 = (w1, inr u) ->
  sign_in hk w1 = (w2, inr u') ->
  (if truthy_fields (fields cfg) then w2' = w2
   else exists fs, get_available_fields hk (object cfg) w2 = (w2', inr fs)) ->
  truthy_str (query cfg) = true ->
  relationship_object cfg = Some rel ->
  truthy_str (Some rel) = true ->
  sign_in hk w2' = (w3, inr u'') ->
  make_query hk (query cfg) w3 = (w4, inr (PDict dct)) ->
  lookup "records" dct = Some (PList rs) ->
  Forall2 (record_shape rel) rs ls ->
  filter is_write_object (log (fst (execute hk (start cfg w d)))) =
  [EvWriteObject (PList (concat ls)) nm (fmt cfg) (coerce_to_timestamp cfg)
     (record_time_added cfg)].
Proof.
  intros H0 H1 H2 Hres Hq Hrel Ht H3 H4 Hd Hs. destruct cfg; tidy. subst.
  destruct query0 as [[|c qs]|]; try discriminate Hq.
  destruct fields0 as [[|f l]|]; tidy;
    [destruct Hres as [fs Hres] | subst w2' | destruct Hres as [fs Hres]].
  all: unfold_run; tidy; rewrite H0; tidy; rewrite H1; tidy; rewrite H2; tidy;
    try (rewrite Hres; tidy);
    rewrite H3; tidy; rewrite H4; tidy; rewrite Ht;
    rewrite (flatten_shaped _ Hd Hs); cbn [py_getitem]; rewrite lookup_update.
  all: repeat (split_call; tidy); reflexivity.
Qed.

Lemma written_records_flattened_witness :
  filter is_write_object
    (log (fst (execute
                 (sample_hooks true ["Id"; "Name"]
                    (PDict [("totalSize", PInt 2);
                            ("records",
                             PList [PDict [("Contacts", PNone)];
                                    PDict [("Contacts",
                                            PDict [("records",
                                                    PList [PStr "Ann";
                                                           PStr "Bob"])])]])]))
                 (start (sample_operator None
                           (Some "SELECT Id, (SELECT Name FROM Contacts) FROM Account")
                           (Some "Contacts")) tt [])))) =
  [EvWriteObject (PList [PStr "Ann"; PStr "Bob"])
     "/tmp/tmpq1w2e3" "csv" false false].
Proof.
  eapply (@written_records_flattened unit
           (sample_hooks true ["Id"; "Name"]
              (PDict [("totalSize", PInt 2);
                      ("records",
                       PList [PDict [("Contacts", PNone)];
                              PDict [("Contacts",
                                      PDict [("records",
                                              PList [PStr "Ann";
                                                     PStr "Bob"])])]])]))
           (sample_operator None
              (Some "SELECT Id, (SELECT Name FROM Contacts) FROM Account")
              (Some "Contacts")) tt [] tt tt tt tt tt tt "/tmp/tmpq1w2e3"
           tt tt tt "Contacts"
           [("totalSize", PInt 2);
            ("records",
             PList [PDict [("Contacts", PNone)];
                    PDict [("Contacts",
                            PDict [("records",
                                    PList [PStr "Ann"; PStr "Bob"])])]])]
           _ [[]; [PStr "Ann"; PStr "Bob"]]); try reflexivity.
  - exists ["Id"; "Name"]. reflexivity.
  - apply Forall2_cons; [apply shape_falsy with (v := PNone); reflexivity|].
    apply Forall2_cons; [eapply shape_nested; reflexivity|].
    apply Forall2_nil.
Defined.

(** ** A custom query without a relationship object *)

(** X14. With no relationship object, or an empty one, [special_query]
    returns what [make_query] returned as it is, whatever kind of value
    that is, having made two calls: the sign-in and the query. *)
Theorem special_query_plain W (hk : hooks W) (s : state W) q rel w1 w2 u v :
  truthy_str q = true ->
  truthy_str rel = false ->
  sign_in hk (world s) = (w1, inr u) ->
  make_query hk q w1 = (w2, inr v) ->
  special_query hk q rel s =
  ({| self := self s; world := w2;
      log := (log s ++ [EvSignIn; EvMakeQuery q])%list;
      disk := disk s; tmp := tmp s |}, Ok v).
Proof.
  intros Hq Hrel Hs Hm. unfold special_query, bind, call, ret. rewrite Hq.
  cbn [negb]. rewrite Hs. cbn [world log self disk tmp]. rewrite Hm.
  rewrite <- app_assoc. cbn [app].
  destruct rel as [[|c rel]|]; [reflexivity | discriminate Hrel | reflexivity].
Qed.

Lemma special_query_plain_witness :
  snd (special_query (sample_hooks true [] three_accounts)
         (Some "SELECT Id FROM Account") (Some "")
         (start (sample_operator None (Some "SELECT Id FROM Account")
                   (Some "")) tt [])) =
  Ok three_accounts.
Proof.
  rewrite (@special_query_plain unit (sample_hooks true [] three_accounts)
             (start (sample_operator None (Some "SELECT Id FROM Account")
                       (Some "")) tt [])
             (Some "SELECT Id FROM Account") (Some "") tt tt tt three_accounts
             eq_refl eq_refl eq_refl eq_refl).
  reflexivity.
Defined.
